(** * goservice / managers/go/gocrypto/ecdsakey.go

    A shallow embedding of the ECDSA key handles of [gocrypto] and of the
    factory functions that build them from generated material, from a native
    key and from a PEM block, followed by the properties the specification
    states about them.

    The Go standard library ([crypto/ecdsa], [crypto/elliptic],
    [crypto/x509], [encoding/pem]) is an external collaborator: its parsers,
    encoders, key generator and signer are operations of a type class, and
    the source is embedded over any instance of it. *)

From Stdlib Require Import String List ZArith Bool.
Import ListNotations.

Local Open Scope string_scope.
Local Open Scope Z_scope.

(* ================================================================== *)
(** ** The Go runtime: byte slices, pointers, errors, panics           *)
(* ================================================================== *)

(** [[]byte]. *)
Definition bytes : Type := list Byte.byte.

(** A Go pointer [*T]: [None] is [nil]. *)
Definition ptr (T : Type) : Type := option T.

(** A value of the interface [error], by the message its [Error()] gives. *)
Inductive error : Type :=
| GoError (msg : string).

(** What a call of a Go function with the result list [(T, error)] comes
    to: it returns a value and a nil error, it returns a non-nil error (and
    the zero value, [nil] for a pointer), or it panics. *)
Inductive outcome (T : Type) : Type :=
| Return (v : T)
| Fail (err : error)
| Panic.

Arguments Return {T} v.
Arguments Fail {T} err.
Arguments Panic {T}.

(** [v, err := c; if err != nil { return nil, err }; k v] *)
Definition bind {A B : Type} (c : outcome A) (k : A -> outcome B) : outcome B :=
  match c with
  | Return v => k v
  | Fail err => Fail err
  | Panic => Panic
  end.

Declare Scope go_scope.
Delimit Scope go_scope with go.
Notation "x <- c ;; k" := (bind c (fun x => k))
  (at level 61, c at next level, right associativity) : go_scope.
Local Open Scope go_scope.

(** The handle a call produced, if it produced one. *)
Definition produced {T : Type} (c : outcome T) : option T :=
  match c with
  | Return v => Some v
  | _ => None
  end.

(** [fmt.Errorf(prefix + "%s", arg)] and [fmt.Errorf(prefix + "%T", v)] with
    the verb at the end of the format: the message is the literal text
    followed by the rendering of the argument. *)
Definition Errorf (prefix rendered : string) : error :=
  GoError (prefix ++ rendered).

(** [io.Reader] used as an entropy source: the bytes it will deliver. *)
Definition Reader : Type := bytes.

(** [io.Writer] used as a sink: the bytes written to it so far. *)
Definition Writer : Type := bytes.

(** [crypto.SignerOpts], by the value of its [HashFunc()]. *)
Definition SignerOpts : Type := Z.

(* ================================================================== *)
(** ** crypto/elliptic and crypto/ecdsa: the native key material       *)
(* ================================================================== *)

Module elliptic.

(** [elliptic.CurveParams]: the fields this package reads. *)
Record CurveParams : Type := {
  Name : string;
  BitSize : Z
}.

(** The interface [elliptic.Curve], by what its [Params()] returns; a nil
    interface (or nil parameters) is [None]. *)
Definition Curve : Type := ptr CurveParams.

Definition P224 : Curve := Some {| Name := "P-224"; BitSize := 224 |}.
Definition P256 : Curve := Some {| Name := "P-256"; BitSize := 256 |}.
Definition P384 : Curve := Some {| Name := "P-384"; BitSize := 384 |}.
Definition P521 : Curve := Some {| Name := "P-521"; BitSize := 521 |}.

End elliptic.

Module ecdsa.

Record PublicKey : Type := {
  Curve : elliptic.Curve;
  X : Z;
  Y : Z
}.

Record PrivateKey : Type := {
  Public : PublicKey;      (* the embedded [PublicKey] *)
  D : Z
}.

(** [key.Params()] on a [*ecdsa.PublicKey]: the method is promoted from
    the embedded [elliptic.Curve]; a nil [key] or a nil curve panics. *)
Definition PublicKey_Params (key : ptr PublicKey) : outcome elliptic.CurveParams :=
  match key with
  | None => Panic
  | Some k =>
      match Curve k with
      | None => Panic
      | Some params => Return params
      end
  end.

(** [&key.PublicKey] for a [key : *ecdsa.PrivateKey]. *)
Definition addr_PublicKey (key : ptr PrivateKey) : ptr PublicKey :=
  option_map Public key.

(** [key.Params()] on a [*ecdsa.PrivateKey]. *)
Definition PrivateKey_Params (key : ptr PrivateKey) : outcome elliptic.CurveParams :=
  PublicKey_Params (addr_PublicKey key).

End ecdsa.

(** The dynamic values the [x509] parsers return as [interface{}] / [any],
    one constructor per dynamic type the library documents, and the nil
    interface. A pointer inside the interface may itself be nil. *)
Inductive any : Type :=
| AnyNil
| AnyRSAPrivateKey (N E D : Z)
| AnyECDSAPrivateKey (k : ptr ecdsa.PrivateKey)
| AnyEd25519PrivateKey (k : bytes)
| AnyECDHPrivateKey (k : bytes)
| AnyRSAPublicKey (N E : Z)
| AnyDSAPublicKey (P Q G Y : Z)
| AnyECDSAPublicKey (k : ptr ecdsa.PublicKey)
| AnyEd25519PublicKey (k : bytes)
| AnyECDHPublicKey (k : bytes).

(** The rendering of [%T]: the dynamic type of the value. *)
Definition typeName (v : any) : string :=
  match v with
  | AnyNil => "<nil>"
  | AnyRSAPrivateKey _ _ _ => "*rsa.PrivateKey"
  | AnyECDSAPrivateKey _ => "*ecdsa.PrivateKey"
  | AnyEd25519PrivateKey _ => "ed25519.PrivateKey"
  | AnyECDHPrivateKey _ => "*ecdh.PrivateKey"
  | AnyRSAPublicKey _ _ => "*rsa.PublicKey"
  | AnyDSAPublicKey _ _ _ _ => "*dsa.PublicKey"
  | AnyECDSAPublicKey _ => "*ecdsa.PublicKey"
  | AnyEd25519PublicKey _ => "ed25519.PublicKey"
  | AnyECDHPublicKey _ => "*ecdh.PublicKey"
  end.

(** The comma-ok type assertion of [key] to a pointer to [ecdsa.PrivateKey]. *)
Definition assert_ecdsa_PrivateKey (v : any) : option (ptr ecdsa.PrivateKey) :=
  match v with
  | AnyECDSAPrivateKey k => Some k
  | _ => None
  end.

(** The comma-ok type assertion of [key] to a pointer to [ecdsa.PublicKey]. *)
Definition assert_ecdsa_PublicKey (v : any) : option (ptr ecdsa.PublicKey) :=
  match v with
  | AnyECDSAPublicKey k => Some k
  | _ => None
  end.

Module pem.

(** [pem.Block]. *)
Record Block : Type := {
  Type_ : string;
  Headers : list (string * string);
  Bytes : bytes
}.

End pem.

(** The operations of the standard library this package calls (and the
    encoders that are the inverses of its parsers). They are not part of
    the package: the embedding is over any implementation of them. *)
Class StdLib : Type := {
  (* crypto/x509 *)
  ParsePKCS8PrivateKey : bytes -> outcome any;
  ParseECPrivateKey : bytes -> outcome (ptr ecdsa.PrivateKey);
  ParsePKIXPublicKey : bytes -> outcome any;
  MarshalPKCS8PrivateKey : any -> outcome bytes;
  MarshalECPrivateKey : ptr ecdsa.PrivateKey -> outcome bytes;
  MarshalPKIXPublicKey : any -> outcome bytes;
  (* encoding/pem *)
  pem_EncodeToMemory : pem.Block -> bytes;
  pem_Decode : bytes -> ptr pem.Block * bytes;
  (* crypto/ecdsa: the scalar and the point [ecdsa.GenerateKey] draws on a
     curve, and the [Sign] method of a non-nil [ecdsa.PrivateKey] *)
  ecdsa_keygen : elliptic.CurveParams -> Reader -> outcome (Z * (Z * Z));
  ecdsa_sign : ecdsa.PrivateKey -> Reader -> bytes -> SignerOpts -> outcome bytes
}.

Section Ecdsa.
Context `{StdLib}.

(** [ecdsa.GenerateKey(c, rand)]: the key it returns is on the curve [c]
    it was asked for. *)
Definition ecdsa_GenerateKey (c : elliptic.Curve) (rand : Reader)
  : outcome (ptr ecdsa.PrivateKey) :=
  match c with
  | None => Panic
  | Some params =>
      m <- ecdsa_keygen params rand ;;
      Return (Some {| ecdsa.Public := {| ecdsa.Curve := c;
                                         ecdsa.X := fst (snd m);
                                         ecdsa.Y := snd (snd m) |};
                      ecdsa.D := fst m |})
  end.

(** [key.Sign(rand, digest, opts)] on a [*ecdsa.PrivateKey]. *)
Definition ecdsa_PrivateKey_Sign (key : ptr ecdsa.PrivateKey)
    (rand : Reader) (digest : bytes) (opts : SignerOpts) : outcome bytes :=
  match key with
  | None => Panic
  | Some k => ecdsa_sign k rand digest opts
  end.

End Ecdsa.

(* ================================================================== *)
(** ** interfaces/ifcrypto and the shared [KeyBase]                     *)
(* ================================================================== *)

Module ifcrypto.

(** Modelled from the spec: the declaration of [ifcrypto.KeyType] is not
    among the sources. It is the tagged variant of the algorithm family
    (elliptic-curve, RSA, symmetric); [KeyTypeRsa] is the one constant of
    it the source names. *)
Inductive KeyType : Type :=
| KeyTypeEllipticCurve
| KeyTypeRsa
| KeyTypeSymmetric.

(** Modelled from the spec: the declaration of [ifcrypto.KeyUsage] is not
    among the sources. It is a tag of an enumerated domain (signing,
    key-agreement, encryption). *)
Inductive KeyUsage : Type :=
| KeyUsageSigning
| KeyUsageKeyAgreement
| KeyUsageEncryption.

(** Modelled from the spec: the declaration of [ifcrypto.Chipher] is not
    among the sources. It names a symmetric cipher a key may be paired
    with; the source only ever builds the empty slice of them. *)
Definition Chipher : Type := string.

End ifcrypto.

(** Modelled from the spec: the declaration of the struct [KeyBase],
    embedded in both handles, is in another file of the package and not
    among the sources. It is the key metadata record of the spec (id, key
    type, key size in bits, usage tags, ciphers) under the field names the
    composite literals of this file set. A field a literal leaves out has
    its zero value (the nil slice, which as a list is empty). *)
Record KeyBase : Type := {
  id : string;
  keyType : ifcrypto.KeyType;
  keySize : Z;
  usage : list ifcrypto.KeyUsage;
  chiper : list ifcrypto.Chipher
}.

(* ================================================================== *)
(** ** utils/cryptoutils: the PEM writers                               *)
(* ================================================================== *)

Module cryptoutils.

(** The private encodings of the PEM label vocabulary. *)
Inductive PrivateForm : Type :=
| PKCS8          (* label "PRIVATE KEY" *)
| SEC1.          (* label "EC PRIVATE KEY" *)

(** The public labels of the PEM label vocabulary, both PKIX. *)
Inductive PublicLabel : Type :=
| PublicKeyLabel       (* "PUBLIC KEY" *)
| ECPublicKeyLabel.    (* "EC PUBLIC KEY" *)

Definition private_label (f : PrivateForm) : string :=
  match f with
  | PKCS8 => "PRIVATE KEY"
  | SEC1 => "EC PRIVATE KEY"
  end.

Definition public_label (l : PublicLabel) : string :=
  match l with
  | PublicKeyLabel => "PUBLIC KEY"
  | ECPublicKeyLabel => "EC PUBLIC KEY"
  end.

(** Which of the labels of the vocabulary the writers use: the spec names
    the vocabulary and not the writers' choice in it. *)
Record Format : Type := {
  private_form : PrivateForm;
  public_as : PublicLabel
}.

Section Writers.
Context `{StdLib}.
Variable fmt : Format.

(** Modelled from the spec: [cryptoutils.ECDSAPublicKeyToPEM] is not
    among the sources. It encodes the public key material in the PKIX
    form and writes it as one PEM block to the sink. *)
Definition ECDSAPublicKeyToPEM (w : Writer) (key : ptr ecdsa.PublicKey)
  : outcome Writer :=
  der <- MarshalPKIXPublicKey (AnyECDSAPublicKey key) ;;
  Return (w ++ pem_EncodeToMemory
                 {| pem.Type_ := public_label (public_as fmt);
                    pem.Headers := [];
                    pem.Bytes := der |})%list.

(** The private key material in the form [f]. *)
Definition encode_private (f : PrivateForm) (key : ptr ecdsa.PrivateKey)
  : outcome bytes :=
  match f with
  | PKCS8 => MarshalPKCS8PrivateKey (AnyECDSAPrivateKey key)
  | SEC1 => MarshalECPrivateKey key
  end.

(** Modelled from the spec: [cryptoutils.ECDSAPrivateKeyToPEM] is not
    among the sources. It encodes the private key material via the PEM
    codec and writes it as a PEM block to the sink; if [public] is true
    it appends a second PEM block for the public key. *)
Definition ECDSAPrivateKeyToPEM (w : Writer) (key : ptr ecdsa.PrivateKey)
    (public : bool) : outcome Writer :=
  der <- encode_private (private_form fmt) key ;;
  let w1 := (w ++ pem_EncodeToMemory
                   {| pem.Type_ := private_label (private_form fmt);
                      pem.Headers := [];
                      pem.Bytes := der |})%list in
  if public
  then ECDSAPublicKeyToPEM w1 (ecdsa.addr_PublicKey key)
  else Return w1.

End Writers.

End cryptoutils.

(* ================================================================== *)
(** ** managers/go/gocrypto/ecdsakey.go                                 *)
(* ================================================================== *)

(** [type ECDSAPublicKey struct { KeyBase; key *ecdsa.PublicKey }] with its
    methods. *)
Module ECDSAPublicKey.

Record t : Type := {
  base : KeyBase;
  key : ptr ecdsa.PublicKey
}.

Section Methods.
Context `{StdLib}.
Variable fmt : cryptoutils.Format.

(** Since this is a public key, the [public] parameter is ignored. *)
Definition PEMWrite (r : t) (w : Writer) (public : bool) : outcome Writer :=
  cryptoutils.ECDSAPublicKeyToPEM fmt w (key r).

End Methods.

Definition GetKey (r : t) : any := AnyECDSAPublicKey (key r).

Definition IsSymmetric (r : t) : bool := false.

Definition IsPrivate (r : t) : bool := true.

Definition IsRemoteKey (r : t) : bool := false.

End ECDSAPublicKey.

(** [type ECDSAPrivateKey struct { KeyBase; key *ecdsa.PrivateKey;
    public *ECDSAPublicKey }] with its methods. *)
Module ECDSAPrivateKey.

Record t : Type := {
  base : KeyBase;
  key : ptr ecdsa.PrivateKey;
  public : ptr ECDSAPublicKey.t
}.

Section Methods.
Context `{StdLib}.
Variable fmt : cryptoutils.Format.

(** The [opts] argument is passed on to the key. *)
Definition Sign (r : t) (rand : Reader) (digest : bytes) (opts : SignerOpts)
  : outcome bytes :=
  ecdsa_PrivateKey_Sign (key r) rand digest opts.

Definition PEMWrite (r : t) (w : Writer) (public : bool) : outcome Writer :=
  cryptoutils.ECDSAPrivateKeyToPEM fmt w (key r) public.

End Methods.

Definition GetPublic (r : t) : ptr ECDSAPublicKey.t := public r.

Definition GetKey (r : t) : any := AnyECDSAPrivateKey (key r).

Definition IsSymmetric (r : t) : bool := false.

Definition IsPrivate (r : t) : bool := true.

Definition IsRemoteKey (r : t) : bool := false.

End ECDSAPrivateKey.

(** [NewECDSAPublicKeyFromKey(id, key, usage...)]. The composite literal
    calls [key.Params()], which panics on a nil key or curve. *)
Definition NewECDSAPublicKeyFromKey (id : string) (key : ptr ecdsa.PublicKey)
    (usage : list ifcrypto.KeyUsage) : outcome ECDSAPublicKey.t :=
  params <- ecdsa.PublicKey_Params key ;;
  Return {| ECDSAPublicKey.base := {| id := id;
                                      keyType := ifcrypto.KeyTypeRsa;
                                      keySize := elliptic.BitSize params;
                                      usage := usage;
                                      chiper := [] |};
            ECDSAPublicKey.key := key |}.

(** [NewECDSAPrivateKeyFromKey(id, key, usage...)]. The operands of the
    literal are evaluated in order: [key.Params()] first, the public handle
    after it. *)
Definition NewECDSAPrivateKeyFromKey (id : string) (key : ptr ecdsa.PrivateKey)
    (usage : list ifcrypto.KeyUsage) : outcome ECDSAPrivateKey.t :=
  params <- ecdsa.PrivateKey_Params key ;;
  pub <- NewECDSAPublicKeyFromKey id (ecdsa.addr_PublicKey key) usage ;;
  Return {| ECDSAPrivateKey.base := {| id := id;
                                       keyType := ifcrypto.KeyTypeRsa;
                                       keySize := elliptic.BitSize params;
                                       usage := usage;
                                       chiper := [] |};
            ECDSAPrivateKey.key := key;
            ECDSAPrivateKey.public := Some pub |}.

Section Factory.
Context `{StdLib}.

Definition NewECDSAPrivateKeyFromPEM (block : pem.Block) (id : string)
    (usage : list ifcrypto.KeyUsage) : outcome ECDSAPrivateKey.t :=
  if String.eqb (pem.Type_ block) "PRIVATE KEY" then
    key <- ParsePKCS8PrivateKey (pem.Bytes block) ;;
    match assert_ecdsa_PrivateKey key with
    | Some ecdsakey => NewECDSAPrivateKeyFromKey id ecdsakey usage
    | None => Fail (Errorf "not a *ecdsa.PrivateKey: " (typeName key))
    end
  else if String.eqb (pem.Type_ block) "EC PRIVATE KEY" then
    key <- ParseECPrivateKey (pem.Bytes block) ;;
    NewECDSAPrivateKeyFromKey id key usage
  else
    Fail (Errorf "unsupported PEM block: " (pem.Type_ block)).

(** [NewECDSAPrivateKey(id, bits, usage...)]; [rand] is what the global
    [rand.Reader] delivers during the call. *)
Definition NewECDSAPrivateKey (id : string) (bits : Z)
    (usage : list ifcrypto.KeyUsage) (rand : Reader)
  : outcome ECDSAPrivateKey.t :=
  key <- ecdsa_GenerateKey elliptic.P256 rand ;;
  NewECDSAPrivateKeyFromKey id key usage.

Definition NewECDSAPublicKeyFromPEM (block : pem.Block) (id : string)
    (usage : list ifcrypto.KeyUsage) : outcome ECDSAPublicKey.t :=
  if String.eqb (pem.Type_ block) "PUBLIC KEY"
     || String.eqb (pem.Type_ block) "EC PUBLIC KEY" then
    key <- ParsePKIXPublicKey (pem.Bytes block) ;;
    match assert_ecdsa_PublicKey key with
    | Some ecdsakey => NewECDSAPublicKeyFromKey id ecdsakey usage
    | None => Fail (Errorf "not a *ecdsa.PublicKey: " (typeName key))
    end
  else
    Fail (Errorf "unsupported PEM block: " (pem.Type_ block)).

End Factory.

(* ================================================================== *)
(** ** Handles by construction path, and the codec's contract           *)
(* ================================================================== *)

Section Paths.
Context `{StdLib}.

(** A private handle is produced by one of the three construction paths:
    from a native key, from a PEM block, from generated material. *)
Inductive ConstructedPrivate : ECDSAPrivateKey.t -> Prop :=
| private_from_key id key usage r :
    NewECDSAPrivateKeyFromKey id key usage = Return r ->
    ConstructedPrivate r
| private_from_pem block id usage r :
    NewECDSAPrivateKeyFromPEM block id usage = Return r ->
    ConstructedPrivate r
| private_generated id bits usage rand r :
    NewECDSAPrivateKey id bits usage rand = Return r ->
    ConstructedPrivate r.

(** A public handle is produced from a native public key, from a PEM
    block, or as the public counterpart of a private handle. *)
Inductive ConstructedPublic : ECDSAPublicKey.t -> Prop :=
| public_from_key id key usage p :
    NewECDSAPublicKeyFromKey id key usage = Return p ->
    ConstructedPublic p
| public_from_pem block id usage p :
    NewECDSAPublicKeyFromPEM block id usage = Return p ->
    ConstructedPublic p
| public_of_private r p :
    ConstructedPrivate r ->
    ECDSAPrivateKey.GetPublic r = Some p ->
    ConstructedPublic p.

(** A method call through a handle pointer: a nil receiver panics as soon
    as the method reads a field. *)
Definition through {T R : Type} (p : ptr T) (method : T -> outcome R) : outcome R :=
  match p with
  | None => Panic
  | Some r => method r
  end.

(** The contract of the PEM codec and of [crypto/x509] the round trip
    rests on: a parser reads back what its encoder wrote, and decoding a
    PEM stream gives its first block and the rest of the stream. *)
Class CodecLaws : Prop := {
  pem_decode_encode : forall label der rest,
    let b := {| pem.Type_ := label; pem.Headers := []; pem.Bytes := der |} in
    pem_Decode (pem_EncodeToMemory b ++ rest)%list = (Some b, rest);
  parse_marshal_pkcs8 : forall key der,
    MarshalPKCS8PrivateKey (AnyECDSAPrivateKey key) = Return der ->
    ParsePKCS8PrivateKey der = Return (AnyECDSAPrivateKey key);
  parse_marshal_sec1 : forall key der,
    MarshalECPrivateKey key = Return der ->
    ParseECPrivateKey der = Return key
}.

End Paths.

(* ================================================================== *)
(** ** A small instance of the standard library, to run the code on     *)
(* ================================================================== *)

Module Toy.

Import Byte.

Definition scalar_of_byte (b : byte) : Z := Z.of_N (Byte.to_N b).

Definition byte_of_scalar (z : Z) : option byte :=
  if 0 <=? z then Byte.of_N (Z.to_N z) else None.

(** The key with secret scalar [d]: a stand-in point on P-256. *)
Definition public_of (d : Z) : ecdsa.PublicKey :=
  {| ecdsa.Curve := elliptic.P256; ecdsa.X := d + 1; ecdsa.Y := d + 2 |}.

Definition key_of (d : Z) : ecdsa.PrivateKey :=
  {| ecdsa.Public := public_of d; ecdsa.D := d |}.

Definition curve_eqb (c1 c2 : elliptic.Curve) : bool :=
  match c1, c2 with
  | Some p1, Some p2 =>
      String.eqb (elliptic.Name p1) (elliptic.Name p2)
      && (elliptic.BitSize p1 =? elliptic.BitSize p2)
  | None, None => true
  | _, _ => false
  end.

Definition public_eqb (k1 k2 : ecdsa.PublicKey) : bool :=
  curve_eqb (ecdsa.Curve k1) (ecdsa.Curve k2)
  && (ecdsa.X k1 =? ecdsa.X k2) && (ecdsa.Y k1 =? ecdsa.Y k2).

Definition private_eqb (k1 k2 : ecdsa.PrivateKey) : bool :=
  public_eqb (ecdsa.Public k1) (ecdsa.Public k2) && (ecdsa.D k1 =? ecdsa.D k2).

(** DER stand-ins: a tag byte and the scalar. *)
Definition marshal_private (tag : byte) (key : ptr ecdsa.PrivateKey) : outcome bytes :=
  match key with
  | None => Fail (GoError "x509: nil key")
  | Some k =>
      match byte_of_scalar (ecdsa.D k) with
      | Some b =>
          if private_eqb k (key_of (ecdsa.D k))
          then Return [tag; b]
          else Fail (GoError "x509: unknown elliptic curve")
      | None => Fail (GoError "x509: unknown elliptic curve")
      end
  end.

Definition marshal_public (key : ptr ecdsa.PublicKey) : outcome bytes :=
  match key with
  | None => Fail (GoError "x509: nil key")
  | Some k =>
      match byte_of_scalar (ecdsa.X k - 1) with
      | Some b =>
          if public_eqb k (public_of (ecdsa.X k - 1))
          then Return [x50; b]
          else Fail (GoError "x509: unsupported elliptic curve")
      | None => Fail (GoError "x509: unsupported elliptic curve")
      end
  end.

Definition parse_pkcs8 (der : bytes) : outcome any :=
  match der with
  | [tag; b] =>
      if Byte.eqb tag x30 then Return (AnyECDSAPrivateKey (Some (key_of (scalar_of_byte b))))
      else if Byte.eqb tag x31 then Return (AnyRSAPrivateKey 3233 17 (scalar_of_byte b))
      else Fail (GoError "x509: failed to parse private key")
  | _ => Fail (GoError "asn1: syntax error: truncated tag or length")
  end.

Definition parse_sec1 (der : bytes) : outcome (ptr ecdsa.PrivateKey) :=
  match der with
  | [tag; b] =>
      if Byte.eqb tag x02 then Return (Some (key_of (scalar_of_byte b)))
      else Fail (GoError "x509: failed to parse EC private key")
  | _ => Fail (GoError "asn1: syntax error: truncated tag or length")
  end.

Definition parse_pkix (der : bytes) : outcome any :=
  match der with
  | [tag; b] =>
      if Byte.eqb tag x50 then Return (AnyECDSAPublicKey (Some (public_of (scalar_of_byte b))))
      else if Byte.eqb tag x51 then Return (AnyRSAPublicKey 3233 (scalar_of_byte b))
      else Fail (GoError "x509: unknown public key algorithm")
  | _ => Fail (GoError "asn1: syntax error: truncated tag or length")
  end.

(** PEM stand-in: every byte of a field is escaped with [x01] and the
    field is closed by [x00]; a block is its label and its payload. *)
Definition frame (field : bytes) : bytes :=
  (flat_map (fun b => [x01; b]) field ++ [x00])%list.

Fixpoint unframe (data : bytes) : option (bytes * bytes) :=
  match data with
  | m :: rest =>
      if Byte.eqb m x00 then Some ([], rest)
      else if Byte.eqb m x01 then
        match rest with
        | b :: rest' =>
            match unframe rest' with
            | Some (field, tail) => Some (b :: field, tail)
            | None => None
            end
        | [] => None
        end
      else None
  | [] => None
  end.

Definition encode_block (b : pem.Block) : bytes :=
  (frame (list_byte_of_string (pem.Type_ b)) ++ frame (pem.Bytes b))%list.

Definition decode_block (data : bytes) : ptr pem.Block * bytes :=
  match unframe data with
  | Some (label, data1) =>
      match unframe data1 with
      | Some (der, rest) =>
          (Some {| pem.Type_ := string_of_list_byte label;
                   pem.Headers := [];
                   pem.Bytes := der |}, rest)
      | None => (None, data)
      end
  | None => (None, data)
  end.

Definition keygen (params : elliptic.CurveParams) (rand : Reader)
  : outcome (Z * (Z * Z)) :=
  match rand with
  | b :: _ => let d := scalar_of_byte b in Return (d, (d + 1, d + 2))
  | [] => Fail (GoError "EOF")
  end.

Definition sign (k : ecdsa.PrivateKey) (rand : Reader) (digest : bytes)
    (opts : SignerOpts) : outcome bytes :=
  match byte_of_scalar (ecdsa.D k) with
  | Some b => Return (b :: digest ++ firstn 1 rand)%list
  | None => Fail (GoError "ecdsa: invalid private key")
  end.

#[export] Instance lib : StdLib := {|
  ParsePKCS8PrivateKey := parse_pkcs8;
  ParseECPrivateKey := parse_sec1;
  ParsePKIXPublicKey := parse_pkix;
  MarshalPKCS8PrivateKey := fun v =>
    match v with
    | AnyECDSAPrivateKey key => marshal_private x30 key
    | _ => Fail (GoError "x509: unknown key type while marshaling PKCS#8")
    end;
  MarshalECPrivateKey := marshal_private x02;
  MarshalPKIXPublicKey := fun v =>
    match v with
    | AnyECDSAPublicKey key => marshal_public key
    | _ => Fail (GoError "x509: unsupported public key type")
    end;
  pem_EncodeToMemory := encode_block;
  pem_Decode := decode_block;
  ecdsa_keygen := keygen;
  ecdsa_sign := sign
|}.

Definition sec1_format : cryptoutils.Format :=
  {| cryptoutils.private_form := cryptoutils.SEC1;
     cryptoutils.public_as := cryptoutils.PublicKeyLabel |}.

Definition pkcs8_format : cryptoutils.Format :=
  {| cryptoutils.private_form := cryptoutils.PKCS8;
     cryptoutils.public_as := cryptoutils.PublicKeyLabel |}.

(** Inputs the code is run on: a PKCS#8 block holding an RSA key, a block
    that is a certificate, an EC private-key block, a PKIX public block, and
    the handle generated from the entropy byte 7 with what it exports. *)
Definition rsa_block : pem.Block :=
  {| pem.Type_ := "PRIVATE KEY"; pem.Headers := []; pem.Bytes := [x31; x05] |}.

Definition certificate_block : pem.Block :=
  {| pem.Type_ := "CERTIFICATE"; pem.Headers := []; pem.Bytes := [x30; x07] |}.

Definition pkcs8_block : pem.Block :=
  {| pem.Type_ := "PRIVATE KEY"; pem.Headers := []; pem.Bytes := [x30; x07] |}.

Definition sec1_block : pem.Block :=
  {| pem.Type_ := "EC PRIVATE KEY"; pem.Headers := []; pem.Bytes := [x02; x07] |}.

Definition pkix_block : pem.Block :=
  {| pem.Type_ := "EC PUBLIC KEY"; pem.Headers := []; pem.Bytes := [x50; x07] |}.

Definition base_k1 : KeyBase :=
  {| id := "k1";
     keyType := ifcrypto.KeyTypeRsa;
     keySize := 256;
     usage := [ifcrypto.KeyUsageSigning];
     chiper := [] |}.

Definition public_handle : ECDSAPublicKey.t :=
  {| ECDSAPublicKey.base := base_k1;
     ECDSAPublicKey.key := Some (public_of 7) |}.

Definition private_handle : ECDSAPrivateKey.t :=
  {| ECDSAPrivateKey.base := base_k1;
     ECDSAPrivateKey.key := Some (key_of 7);
     ECDSAPrivateKey.public := Some public_handle |}.

Definition exported : bytes :=
  Eval vm_compute in
    match ECDSAPrivateKey.PEMWrite sec1_format private_handle [] true with
    | Return w => w
    | _ => []
    end.


End Toy.

(* ================================================================== *)
(** ** Properties                                                       *)
(* ================================================================== *)

Lemma bind_Return {A B : Type} (c : outcome A) (k : A -> outcome B) (r : B) :
  bind c k = Return r -> exists v, c = Return v /\ k v = Return r.
Proof.
  destruct c as [v | err | ]; simpl; intros E; try discriminate.
  exists v; split; [reflexivity | exact E].
Qed.

(** Unfolds one successful step of a sequence of calls. *)
Ltac step_in E :=
  let v := fresh "v" in
  let Ev := fresh "E" v in
  apply bind_Return in E; destruct E as (v & Ev & E).

Lemma PublicKey_Params_Return key params :
  ecdsa.PublicKey_Params key = Return params ->
  exists k, key = Some k /\ ecdsa.Curve k = Some params.
Proof.
  destruct key as [k | ]; simpl; [ | discriminate].
  destruct (ecdsa.Curve k) as [c | ] eqn:Ec; [ | discriminate].
  intros E; injection E as ->. exists k; split; [reflexivity | exact Ec].
Qed.

(** The public constructor succeeds exactly on a key with a curve, and the
    handle is the literal of the source. *)
Lemma NewECDSAPublicKeyFromKey_Return id0 key usage0 p :
  NewECDSAPublicKeyFromKey id0 key usage0 = Return p ->
  exists params,
    ecdsa.PublicKey_Params key = Return params /\
    p = {| ECDSAPublicKey.base := {| id := id0;
                                     keyType := ifcrypto.KeyTypeRsa;
                                     keySize := elliptic.BitSize params;
                                     usage := usage0;
                                     chiper := [] |};
           ECDSAPublicKey.key := key |}.
Proof.
  unfold NewECDSAPublicKeyFromKey; intros E. step_in E.
  injection E as <-. exists v; split; [assumption | reflexivity].
Qed.

Lemma NewECDSAPrivateKeyFromKey_Return id0 key usage0 r :
  NewECDSAPrivateKeyFromKey id0 key usage0 = Return r ->
  exists params pub,
    ecdsa.PrivateKey_Params key = Return params /\
    NewECDSAPublicKeyFromKey id0 (ecdsa.addr_PublicKey key) usage0 = Return pub /\
    r = {| ECDSAPrivateKey.base := {| id := id0;
                                      keyType := ifcrypto.KeyTypeRsa;
                                      keySize := elliptic.BitSize params;
                                      usage := usage0;
                                      chiper := [] |};
           ECDSAPrivateKey.key := key;
           ECDSAPrivateKey.public := Some pub |}.
Proof.
  unfold NewECDSAPrivateKeyFromKey; intros E. step_in E. step_in E.
  injection E as <-. exists v, v0; repeat split; assumption.
Qed.

(** A key with a curve is wrapped: the from-native-key path is total on
    the keys the parsers and the generator return. *)
Lemma NewECDSAPrivateKeyFromKey_total id0 key usage0 params :
  ecdsa.PrivateKey_Params key = Return params ->
  exists r, NewECDSAPrivateKeyFromKey id0 key usage0 = Return r.
Proof.
  intros E. unfold NewECDSAPrivateKeyFromKey, NewECDSAPublicKeyFromKey.
  rewrite E; simpl. unfold ecdsa.PrivateKey_Params in E. rewrite E; simpl.
  eexists; reflexivity.
Qed.

Section Properties.
Context `{StdLib}.

(** The PEM path and the generation path end in the from-native-key
    path. *)
Lemma NewECDSAPrivateKeyFromPEM_Return block id0 usage0 r :
  NewECDSAPrivateKeyFromPEM block id0 usage0 = Return r ->
  exists key, NewECDSAPrivateKeyFromKey id0 key usage0 = Return r.
Proof.
  unfold NewECDSAPrivateKeyFromPEM; intros E.
  destruct (String.eqb (pem.Type_ block) "PRIVATE KEY").
  - step_in E. destruct (assert_ecdsa_PrivateKey v) as [k | ]; [ | discriminate].
    exists k; exact E.
  - destruct (String.eqb (pem.Type_ block) "EC PRIVATE KEY"); [ | discriminate].
    step_in E. exists v; exact E.
Qed.

Lemma ecdsa_GenerateKey_Return c rand key :
  ecdsa_GenerateKey c rand = Return key ->
  exists k, key = Some k /\ ecdsa.Curve (ecdsa.Public k) = c /\ c <> None.
Proof.
  unfold ecdsa_GenerateKey. destruct c as [params | ]; [ | discriminate].
  intros E. step_in E. injection E as <-.
  eexists; repeat split; discriminate.
Qed.

Lemma NewECDSAPrivateKey_Return id0 bits usage0 rand r :
  NewECDSAPrivateKey id0 bits usage0 rand = Return r ->
  exists k,
    ecdsa.Curve (ecdsa.Public k) = elliptic.P256 /\
    NewECDSAPrivateKeyFromKey id0 (Some k) usage0 = Return r.
Proof.
  unfold NewECDSAPrivateKey; intros E. step_in E.
  apply ecdsa_GenerateKey_Return in Ev as (k & -> & Ec & _).
  exists k; split; assumption.
Qed.

Lemma NewECDSAPublicKeyFromPEM_Return block id0 usage0 p :
  NewECDSAPublicKeyFromPEM block id0 usage0 = Return p ->
  exists key, NewECDSAPublicKeyFromKey id0 key usage0 = Return p.
Proof.
  unfold NewECDSAPublicKeyFromPEM; intros E.
  destruct (_ || _); [ | discriminate].
  step_in E. destruct (assert_ecdsa_PublicKey v) as [k | ]; [ | discriminate].
  exists k; exact E.
Qed.

Lemma ConstructedPrivate_from_key r :
  ConstructedPrivate r ->
  exists id0 key usage0, NewECDSAPrivateKeyFromKey id0 key usage0 = Return r.
Proof.
  intros [id0 key usage0 r' E | block id0 usage0 r' E | id0 bits usage0 rand r' E].
  - exists id0, key, usage0; exact E.
  - apply NewECDSAPrivateKeyFromPEM_Return in E as (key & E).
    exists id0, key, usage0; exact E.
  - apply NewECDSAPrivateKey_Return in E as (k & _ & E).
    exists id0, (Some k), usage0; exact E.
Qed.

Lemma ConstructedPublic_from_key p :
  ConstructedPublic p ->
  exists id0 key usage0, NewECDSAPublicKeyFromKey id0 key usage0 = Return p.
Proof.
  intros [id0 key usage0 p' E | block id0 usage0 p' E | r p' C E].
  - exists id0, key, usage0; exact E.
  - apply NewECDSAPublicKeyFromPEM_Return in E as (key & E).
    exists id0, key, usage0; exact E.
  - apply ConstructedPrivate_from_key in C as (id0 & key & usage0 & C).
    apply NewECDSAPrivateKeyFromKey_Return in C as (params & pub & _ & Epub & ->).
    simpl in E. injection E as <-.
    exists id0, (ecdsa.addr_PublicKey key), usage0; exact Epub.
Qed.

End Properties.

(* ------------------------------------------------------------------ *)
(** *** Dispatch on the PEM label                                       *)
(* ------------------------------------------------------------------ *)

Section Dispatch.
Context `{StdLib}.

(** C1. [NewECDSAPrivateKeyFromPEM] dispatches on the label of the block in
    three ways. Under "PRIVATE KEY" the payload goes to the PKCS#8 parser:
    an ECDSA key it returns is wrapped by [NewECDSAPrivateKeyFromKey], and
    an error of the parser is returned as it is. Under "EC PRIVATE KEY" the
    payload goes to the EC private-key parser and its key is wrapped the
    same way. Under any other label the call fails with the message
    "unsupported PEM block: " followed by the label, and no handle is
    produced. *)
Theorem NewECDSAPrivateKeyFromPEM_dispatch :
  forall (block : pem.Block) (id0 : string) (usage0 : list ifcrypto.KeyUsage),
    (pem.Type_ block = "PRIVATE KEY" ->
       (forall key,
          ParsePKCS8PrivateKey (pem.Bytes block) = Return (AnyECDSAPrivateKey key) ->
          NewECDSAPrivateKeyFromPEM block id0 usage0
          = NewECDSAPrivateKeyFromKey id0 key usage0) /\
       (forall err,
          ParsePKCS8PrivateKey (pem.Bytes block) = Fail err ->
          NewECDSAPrivateKeyFromPEM block id0 usage0 = Fail err)) /\
    (pem.Type_ block = "EC PRIVATE KEY" ->
       NewECDSAPrivateKeyFromPEM block id0 usage0
       = (key <- ParseECPrivateKey (pem.Bytes block) ;;
          NewECDSAPrivateKeyFromKey id0 key usage0)) /\
    (pem.Type_ block <> "PRIVATE KEY" ->
     pem.Type_ block <> "EC PRIVATE KEY" ->
       NewECDSAPrivateKeyFromPEM block id0 usage0
       = Fail (GoError ("unsupported PEM block: " ++ pem.Type_ block)) /\
       produced (NewECDSAPrivateKeyFromPEM block id0 usage0) = None).
Proof.
  intros block id0 usage0. unfold NewECDSAPrivateKeyFromPEM.
  split; [ | split].
  - intros ->; simpl. split.
    + intros key ->; reflexivity.
    + intros err ->; reflexivity.
  - intros ->; reflexivity.
  - intros N1 N2.
    apply String.eqb_neq in N1; apply String.eqb_neq in N2.
    rewrite N1, N2. split; reflexivity.
Qed.

(** C4. Under the label "PRIVATE KEY", a payload the PKCS#8 parser accepts
    but whose key is not an ECDSA private key makes
    [NewECDSAPrivateKeyFromPEM] fail with "not a *ecdsa.PrivateKey: "
    followed by the dynamic type of the decoded key; the call does not
    panic and produces no handle. *)
Theorem NewECDSAPrivateKeyFromPEM_key_type_mismatch :
  forall (block : pem.Block) (id0 : string) (usage0 : list ifcrypto.KeyUsage)
         (key : any),
    pem.Type_ block = "PRIVATE KEY" ->
    ParsePKCS8PrivateKey (pem.Bytes block) = Return key ->
    assert_ecdsa_PrivateKey key = None ->
    NewECDSAPrivateKeyFromPEM block id0 usage0
    = Fail (GoError ("not a *ecdsa.PrivateKey: " ++ typeName key)) /\
    NewECDSAPrivateKeyFromPEM block id0 usage0 <> Panic /\
    produced (NewECDSAPrivateKeyFromPEM block id0 usage0) = None.
Proof.
  intros block id0 usage0 key L P A.
  assert (E : NewECDSAPrivateKeyFromPEM block id0 usage0
              = Fail (GoError ("not a *ecdsa.PrivateKey: " ++ typeName key))).
  { unfold NewECDSAPrivateKeyFromPEM. rewrite L; simpl. rewrite P; simpl.
    rewrite A. reflexivity. }
  rewrite E. repeat split. discriminate.
Qed.

(** C6. [NewECDSAPublicKeyFromPEM] accepts the labels "PUBLIC KEY" and
    "EC PUBLIC KEY" as synonyms: under either, the payload goes to the PKIX
    parser, an ECDSA public key it returns is wrapped by
    [NewECDSAPublicKeyFromKey], an error of the parser is returned as it
    is, and the result is the one the same block gives under the other
    label. Under any other label the call fails with
    "unsupported PEM block: " followed by the label and produces no
    handle. *)
Theorem NewECDSAPublicKeyFromPEM_labels :
  forall (block : pem.Block) (id0 : string) (usage0 : list ifcrypto.KeyUsage),
    (pem.Type_ block = "PUBLIC KEY" \/ pem.Type_ block = "EC PUBLIC KEY" ->
       (forall key,
          ParsePKIXPublicKey (pem.Bytes block) = Return (AnyECDSAPublicKey key) ->
          NewECDSAPublicKeyFromPEM block id0 usage0
          = NewECDSAPublicKeyFromKey id0 key usage0) /\
       (forall err,
          ParsePKIXPublicKey (pem.Bytes block) = Fail err ->
          NewECDSAPublicKeyFromPEM block id0 usage0 = Fail err) /\
       (forall label,
          label = "PUBLIC KEY" \/ label = "EC PUBLIC KEY" ->
          NewECDSAPublicKeyFromPEM
            {| pem.Type_ := label;
               pem.Headers := pem.Headers block;
               pem.Bytes := pem.Bytes block |} id0 usage0
          = NewECDSAPublicKeyFromPEM block id0 usage0)) /\
    (pem.Type_ block <> "PUBLIC KEY" ->
     pem.Type_ block <> "EC PUBLIC KEY" ->
       NewECDSAPublicKeyFromPEM block id0 usage0
       = Fail (GoError ("unsupported PEM block: " ++ pem.Type_ block)) /\
       produced (NewECDSAPublicKeyFromPEM block id0 usage0) = None).
Proof.
  intros block id0 usage0. unfold NewECDSAPublicKeyFromPEM. split.
  - intros L.
    assert (A : String.eqb (pem.Type_ block) "PUBLIC KEY"
                || String.eqb (pem.Type_ block) "EC PUBLIC KEY" = true).
    { destruct L as [-> | ->]; reflexivity. }
    rewrite A. repeat split.
    + intros key ->; reflexivity.
    + intros err ->; reflexivity.
    + intros label [-> | ->]; reflexivity.
  - intros N1 N2.
    apply String.eqb_neq in N1; apply String.eqb_neq in N2.
    rewrite N1, N2. split; reflexivity.
Qed.

End Dispatch.

(* ------------------------------------------------------------------ *)
(** *** Metadata of the handles                                         *)
(* ------------------------------------------------------------------ *)

Section Metadata.
Context `{StdLib}.

(** C8. A key produced by the generation path [NewECDSAPrivateKey] is
    neither remote nor symmetric: [IsRemoteKey] and [IsSymmetric] are
    false. *)
Theorem generated_key_local_asymmetric :
  forall (id0 : string) (bits : Z) (usage0 : list ifcrypto.KeyUsage)
         (rand : Reader) (r : ECDSAPrivateKey.t),
    NewECDSAPrivateKey id0 bits usage0 rand = Return r ->
    ECDSAPrivateKey.IsRemoteKey r = false /\
    ECDSAPrivateKey.IsSymmetric r = false.
Proof.
  intros id0 bits usage0 rand r _. split; reflexivity.
Qed.

(** C10. [NewECDSAPrivateKey] does not look at [bits]: the call gives the
    same outcome for every value of it, and a key it produces is on P-256,
    so the [keySize] of the handle is 256. *)
Theorem NewECDSAPrivateKey_ignores_bits :
  forall (id0 : string) (bits : Z) (usage0 : list ifcrypto.KeyUsage)
         (rand : Reader) (r : ECDSAPrivateKey.t),
    NewECDSAPrivateKey id0 bits usage0 rand = Return r ->
    keySize (ECDSAPrivateKey.base r) = 256 /\
    (exists k, ECDSAPrivateKey.key r = Some k /\
               ecdsa.Curve (ecdsa.Public k) = elliptic.P256) /\
    (forall bits', NewECDSAPrivateKey id0 bits' usage0 rand = Return r).
Proof.
  intros id0 bits usage0 rand r E. split; [ | split].
  - apply NewECDSAPrivateKey_Return in E as (k & Ec & E).
    apply NewECDSAPrivateKeyFromKey_Return in E as (params & pub & Ep & _ & ->).
    unfold ecdsa.PrivateKey_Params, ecdsa.PublicKey_Params in Ep; simpl in Ep.
    rewrite Ec in Ep. injection Ep as <-. reflexivity.
  - apply NewECDSAPrivateKey_Return in E as (k & Ec & E).
    apply NewECDSAPrivateKeyFromKey_Return in E as (params & pub & _ & _ & ->).
    exists k; split; [reflexivity | exact Ec].
  - intros bits'. exact E.
Qed.

(** C5. A private handle of any construction path holds one public
    counterpart, the handle [NewECDSAPublicKeyFromKey] derived at
    construction from the handle's id, the public part of its key and its
    usage; the counterpart has the id and the usage of the private handle,
    and [GetPublic] returns it (it is a field read: it cannot fail, and it
    gives the same handle at every call). *)
Theorem GetPublic_is_derived_counterpart :
  forall r : ECDSAPrivateKey.t,
    ConstructedPrivate r ->
    exists pub : ECDSAPublicKey.t,
      ECDSAPrivateKey.GetPublic r = Some pub /\
      NewECDSAPublicKeyFromKey (id (ECDSAPrivateKey.base r))
        (ecdsa.addr_PublicKey (ECDSAPrivateKey.key r))
        (usage (ECDSAPrivateKey.base r)) = Return pub /\
      id (ECDSAPublicKey.base pub) = id (ECDSAPrivateKey.base r) /\
      usage (ECDSAPublicKey.base pub) = usage (ECDSAPrivateKey.base r).
Proof.
  intros r C.
  apply ConstructedPrivate_from_key in C as (id0 & key & usage0 & E).
  apply NewECDSAPrivateKeyFromKey_Return in E as (params & pub & _ & Epub & ->).
  exists pub; simpl. split; [reflexivity | split; [exact Epub | ]].
  apply NewECDSAPublicKeyFromKey_Return in Epub as (params' & _ & ->).
  split; reflexivity.
Qed.

(** C9. In a handle of any construction path [keySize] is the bit size the
    key material reports, the [BitSize] of the parameters of its curve: in
    a private handle and in its public counterpart, and in a public handle
    built from a native key or from a PEM block. *)
Theorem keySize_is_curve_BitSize :
  (forall r : ECDSAPrivateKey.t,
     ConstructedPrivate r ->
     exists params pub,
       ecdsa.PrivateKey_Params (ECDSAPrivateKey.key r) = Return params /\
       keySize (ECDSAPrivateKey.base r) = elliptic.BitSize params /\
       ECDSAPrivateKey.GetPublic r = Some pub /\
       ecdsa.PublicKey_Params (ECDSAPublicKey.key pub) = Return params /\
       keySize (ECDSAPublicKey.base pub) = elliptic.BitSize params) /\
  (forall p : ECDSAPublicKey.t,
     ConstructedPublic p ->
     exists params,
       ecdsa.PublicKey_Params (ECDSAPublicKey.key p) = Return params /\
       keySize (ECDSAPublicKey.base p) = elliptic.BitSize params).
Proof.
  split.
  - intros r C.
    apply ConstructedPrivate_from_key in C as (id0 & key & usage0 & E).
    apply NewECDSAPrivateKeyFromKey_Return in E as (params & pub & Ep & Epub & ->).
    apply NewECDSAPublicKeyFromKey_Return in Epub as (params' & Ep' & ->).
    unfold ecdsa.PrivateKey_Params in Ep. rewrite Ep in Ep'. injection Ep' as <-.
    exists params; eexists; simpl. repeat split; assumption.
  - intros p C.
    apply ConstructedPublic_from_key in C as (id0 & key & usage0 & E).
    apply NewECDSAPublicKeyFromKey_Return in E as (params & Ep & ->).
    exists params; simpl. split; [exact Ep | reflexivity].
Qed.

(** Every handle, private or public, of every construction path carries the
    tag [KeyTypeRsa]. *)
Lemma keyType_of_constructed :
  (forall r, ConstructedPrivate r ->
             keyType (ECDSAPrivateKey.base r) = ifcrypto.KeyTypeRsa) /\
  (forall p, ConstructedPublic p ->
             keyType (ECDSAPublicKey.base p) = ifcrypto.KeyTypeRsa).
Proof.
  split.
  - intros r C.
    apply ConstructedPrivate_from_key in C as (id0 & key & usage0 & E).
    apply NewECDSAPrivateKeyFromKey_Return in E as (params & pub & _ & _ & ->).
    reflexivity.
  - intros p C.
    apply ConstructedPublic_from_key in C as (id0 & key & usage0 & E).
    apply NewECDSAPublicKeyFromKey_Return in E as (params & _ & ->).
    reflexivity.
Qed.

End Metadata.

(** C2, on the code. The handle [NewECDSAPrivateKeyFromKey] builds for a
    key on P-256, and its public counterpart, carry the key type
    [KeyTypeRsa], which is not the elliptic-curve variant. *)
Theorem ecdsa_handle_keyType_is_rsa :
  exists r pub,
    NewECDSAPrivateKeyFromKey "k1" (Some (Toy.key_of 7)) [ifcrypto.KeyUsageSigning]
    = Return r /\
    ECDSAPrivateKey.GetPublic r = Some pub /\
    keyType (ECDSAPrivateKey.base r) = ifcrypto.KeyTypeRsa /\
    keyType (ECDSAPublicKey.base pub) = ifcrypto.KeyTypeRsa /\
    ifcrypto.KeyTypeRsa <> ifcrypto.KeyTypeEllipticCurve.
Proof.
  do 2 eexists. repeat split. discriminate.
Qed.

(** C3, on the code. [IsPrivate] of an [ECDSAPublicKey] is true, for every
    public handle: for the one built from the public part of a key on
    P-256 in particular. *)
Theorem ECDSAPublicKey_IsPrivate_true :
  (forall p : ECDSAPublicKey.t, ECDSAPublicKey.IsPrivate p = true) /\
  (exists p,
     NewECDSAPublicKeyFromKey "k1" (Some (Toy.public_of 7)) [ifcrypto.KeyUsageSigning]
     = Return p /\
     ECDSAPublicKey.IsPrivate p = true).
Proof.
  split; [reflexivity | eexists; split; reflexivity].
Qed.

(* ------------------------------------------------------------------ *)
(** *** Export and re-import                                            *)
(* ------------------------------------------------------------------ *)

Section RoundTrip.
Context `{StdLib}.
Context {laws : CodecLaws}.
Variable fmt : cryptoutils.Format.

(** What [PEMWrite] of a private handle writes to an empty sink starts with
    the PEM block of the private key material, under the private label of
    the format. *)
Lemma PEMWrite_private_block (r : ECDSAPrivateKey.t) (public : bool) (out : bytes) :
  ECDSAPrivateKey.PEMWrite fmt r [] public = Return out ->
  exists der rest,
    cryptoutils.encode_private (cryptoutils.private_form fmt)
      (ECDSAPrivateKey.key r) = Return der /\
    out = (pem_EncodeToMemory
             {| pem.Type_ := cryptoutils.private_label (cryptoutils.private_form fmt);
                pem.Headers := [];
                pem.Bytes := der |} ++ rest)%list.
Proof.
  unfold ECDSAPrivateKey.PEMWrite, cryptoutils.ECDSAPrivateKeyToPEM.
  intros E. step_in E. exists v. destruct public.
  - unfold cryptoutils.ECDSAPublicKeyToPEM in E. step_in E.
    injection E as <-. simpl. eexists; split; [exact Ev | reflexivity].
  - injection E as <-. simpl. exists []; split; [exact Ev | ].
    symmetry; apply app_nil_r.
Qed.

(** The PEM path reads back the key an encoder of the format wrote. *)
Lemma NewECDSAPrivateKeyFromPEM_of_encoded key der id0 usage0 :
  cryptoutils.encode_private (cryptoutils.private_form fmt) key = Return der ->
  NewECDSAPrivateKeyFromPEM
    {| pem.Type_ := cryptoutils.private_label (cryptoutils.private_form fmt);
       pem.Headers := [];
       pem.Bytes := der |} id0 usage0
  = NewECDSAPrivateKeyFromKey id0 key usage0.
Proof.
  unfold NewECDSAPrivateKeyFromPEM, cryptoutils.encode_private.
  destruct (cryptoutils.private_form fmt); simpl; intros E.
  - rewrite (parse_marshal_pkcs8 _ _ E). reflexivity.
  - rewrite (parse_marshal_sec1 _ _ E). reflexivity.
Qed.

(** C7. Round trip. For a generated private key, what [PEMWrite] exports
    decodes to a PEM block under the private label of the export, and
    [NewECDSAPrivateKeyFromPEM] on that block (with any id and usage)
    produces a handle whose [Sign] gives, for every entropy, digest and
    options, the bytes the original gives, and whose public counterpart
    exports the bytes the original's exports; with the id and usage of the
    original it is the original handle. *)
Theorem export_import_round_trip :
  forall (id0 : string) (bits : Z) (usage0 : list ifcrypto.KeyUsage)
         (rand : Reader) (r : ECDSAPrivateKey.t) (public : bool) (out : bytes),
    NewECDSAPrivateKey id0 bits usage0 rand = Return r ->
    ECDSAPrivateKey.PEMWrite fmt r [] public = Return out ->
    exists block rest,
      pem_Decode out = (Some block, rest) /\
      pem.Type_ block = cryptoutils.private_label (cryptoutils.private_form fmt) /\
      NewECDSAPrivateKeyFromPEM block id0 usage0 = Return r /\
      forall id1 usage1,
      exists r',
        NewECDSAPrivateKeyFromPEM block id1 usage1 = Return r' /\
        (forall rand' digest opts,
           ECDSAPrivateKey.Sign r' rand' digest opts
           = ECDSAPrivateKey.Sign r rand' digest opts) /\
        (forall w flag,
           through (ECDSAPrivateKey.GetPublic r')
             (fun p => ECDSAPublicKey.PEMWrite fmt p w flag)
           = through (ECDSAPrivateKey.GetPublic r)
               (fun p => ECDSAPublicKey.PEMWrite fmt p w flag)).
Proof.
  intros id0 bits usage0 rand r public out G W.
  apply NewECDSAPrivateKey_Return in G as (k & _ & G).
  destruct (PEMWrite_private_block _ _ _ W) as (der & rest & Eder & ->).
  pose proof (NewECDSAPrivateKeyFromKey_Return _ _ _ _ G)
    as (params & pub & Ep & Epub & ->).
  simpl in Eder.
  eexists; exists rest. split; [apply pem_decode_encode | ].
  split; [reflexivity | ].
  split; [rewrite (NewECDSAPrivateKeyFromPEM_of_encoded _ _ _ _ Eder); exact G | ].
  intros id1 usage1.
  rewrite (NewECDSAPrivateKeyFromPEM_of_encoded _ _ _ _ Eder).
  destruct (NewECDSAPrivateKeyFromKey_total id1 _ usage1 _ Ep) as (r' & E').
  exists r'; split; [exact E' | ].
  apply NewECDSAPrivateKeyFromKey_Return in E' as (params' & pub' & _ & Epub' & ->).
  apply NewECDSAPublicKeyFromKey_Return in Epub as (q & _ & ->).
  apply NewECDSAPublicKeyFromKey_Return in Epub' as (q' & _ & ->).
  split; reflexivity.
Qed.

End RoundTrip.

(* ------------------------------------------------------------------ *)
(** *** The small instance keeps the codec's contract                   *)
(* ------------------------------------------------------------------ *)

Lemma unframe_frame (field rest : bytes) :
  Toy.unframe (Toy.frame field ++ rest)%list = Some (field, rest).
Proof.
  unfold Toy.frame. induction field as [ | b field IH]; simpl.
  - reflexivity.
  - rewrite IH. reflexivity.
Qed.

Lemma decode_encode_block (b : pem.Block) (rest : bytes) :
  pem.Headers b = [] ->
  Toy.decode_block (Toy.encode_block b ++ rest)%list = (Some b, rest).
Proof.
  destruct b as [label headers der]; simpl; intros ->.
  unfold Toy.decode_block, Toy.encode_block; simpl.
  rewrite <- app_assoc, unframe_frame, unframe_frame.
  rewrite string_of_list_byte_of_string. reflexivity.
Qed.

Lemma scalar_of_byte_of_scalar (z : Z) (b : Byte.byte) :
  Toy.byte_of_scalar z = Some b -> Toy.scalar_of_byte b = z.
Proof.
  unfold Toy.byte_of_scalar, Toy.scalar_of_byte.
  destruct (0 <=? z) eqn:P; [ | discriminate].
  intros E. apply Byte.to_of_N in E. rewrite E.
  apply Z.leb_le in P. apply Z2N.id; exact P.
Qed.

Lemma public_eqb_eq (k1 k2 : ecdsa.PublicKey) :
  Toy.public_eqb k1 k2 = true -> k1 = k2.
Proof.
  destruct k1 as [[[n1 s1] | ] x1 y1], k2 as [[[n2 s2] | ] x2 y2];
    unfold Toy.public_eqb, Toy.curve_eqb; simpl; intros E;
    repeat (apply andb_true_iff in E; destruct E as [E ?]);
    try discriminate.
  - apply String.eqb_eq in E.
    repeat match goal with Q : (_ =? _) = true |- _ => apply Z.eqb_eq in Q end.
    subst; reflexivity.
  - repeat match goal with Q : (_ =? _) = true |- _ => apply Z.eqb_eq in Q end.
    subst; reflexivity.
Qed.

Lemma private_eqb_eq (k1 k2 : ecdsa.PrivateKey) :
  Toy.private_eqb k1 k2 = true -> k1 = k2.
Proof.
  destruct k1 as [p1 d1], k2 as [p2 d2]; unfold Toy.private_eqb; simpl.
  intros E. apply andb_true_iff in E as [E1 E2].
  apply public_eqb_eq in E1. apply Z.eqb_eq in E2. subst; reflexivity.
Qed.

Lemma parse_marshal_private (tag : Byte.byte) key der :
  Toy.marshal_private tag key = Return der ->
  exists k b, key = Some k /\ der = [tag; b] /\ Toy.key_of (Toy.scalar_of_byte b) = k.
Proof.
  unfold Toy.marshal_private. destruct key as [k | ]; [ | discriminate].
  destruct (Toy.byte_of_scalar (ecdsa.D k)) as [b | ] eqn:Eb; [ | discriminate].
  destruct (Toy.private_eqb k (Toy.key_of (ecdsa.D k))) eqn:Ek; [ | discriminate].
  intros E; injection E as <-. exists k, b. repeat split.
  rewrite (scalar_of_byte_of_scalar _ _ Eb).
  symmetry; apply private_eqb_eq; exact Ek.
Qed.

Lemma Toy_CodecLaws : @CodecLaws Toy.lib.
Proof.
  constructor.
  - intros label der rest b. apply decode_encode_block. reflexivity.
  - intros key der E. simpl in E.
    apply parse_marshal_private in E as (k & b & -> & -> & <-). reflexivity.
  - intros key der E. simpl in E.
    apply parse_marshal_private in E as (k & b & -> & -> & <-). reflexivity.
Qed.

(* ------------------------------------------------------------------ *)
(** *** The theorems at concrete inputs                                 *)
(* ------------------------------------------------------------------ *)

Lemma NewECDSAPrivateKeyFromPEM_dispatch_witness :
  NewECDSAPrivateKeyFromPEM (H := Toy.lib) Toy.pkcs8_block "k1" [ifcrypto.KeyUsageSigning]
  = Return Toy.private_handle /\
  NewECDSAPrivateKeyFromPEM (H := Toy.lib) Toy.sec1_block "k1" [ifcrypto.KeyUsageSigning]
  = Return Toy.private_handle /\
  NewECDSAPrivateKeyFromPEM (H := Toy.lib) Toy.certificate_block "k1" [ifcrypto.KeyUsageSigning]
  = Fail (GoError "unsupported PEM block: CERTIFICATE").
Proof.
  split; [ | split].
  - destruct (@NewECDSAPrivateKeyFromPEM_dispatch Toy.lib Toy.pkcs8_block "k1"
                [ifcrypto.KeyUsageSigning]) as (P & _ & _).
    destruct (P eq_refl) as (W & _).
    exact (W (Some (Toy.key_of 7)) eq_refl).
  - destruct (@NewECDSAPrivateKeyFromPEM_dispatch Toy.lib Toy.sec1_block "k1"
                [ifcrypto.KeyUsageSigning]) as (_ & S & _).
    exact (S eq_refl).
  - destruct (@NewECDSAPrivateKeyFromPEM_dispatch Toy.lib Toy.certificate_block "k1"
                [ifcrypto.KeyUsageSigning]) as (_ & _ & U).
    apply U; discriminate.
Defined.

Lemma NewECDSAPrivateKeyFromPEM_key_type_mismatch_witness :
  NewECDSAPrivateKeyFromPEM (H := Toy.lib) Toy.rsa_block "k1" []
  = Fail (GoError "not a *ecdsa.PrivateKey: *rsa.PrivateKey") /\
  NewECDSAPrivateKeyFromPEM (H := Toy.lib) Toy.rsa_block "k1" [] <> Panic /\
  produced (NewECDSAPrivateKeyFromPEM (H := Toy.lib) Toy.rsa_block "k1" []) = None.
Proof.
  apply (@NewECDSAPrivateKeyFromPEM_key_type_mismatch Toy.lib Toy.rsa_block "k1" []
           (AnyRSAPrivateKey 3233 17 5)); reflexivity.
Defined.

Lemma NewECDSAPublicKeyFromPEM_labels_witness :
  NewECDSAPublicKeyFromPEM (H := Toy.lib) Toy.pkix_block "k1" [ifcrypto.KeyUsageSigning]
  = Return Toy.public_handle /\
  NewECDSAPublicKeyFromPEM (H := Toy.lib)
    {| pem.Type_ := "PUBLIC KEY"; pem.Headers := []; pem.Bytes := pem.Bytes Toy.pkix_block |}
    "k1" [ifcrypto.KeyUsageSigning]
  = NewECDSAPublicKeyFromPEM (H := Toy.lib) Toy.pkix_block "k1" [ifcrypto.KeyUsageSigning] /\
  NewECDSAPublicKeyFromPEM (H := Toy.lib) Toy.certificate_block "k1" []
  = Fail (GoError "unsupported PEM block: CERTIFICATE").
Proof.
  split; [ | split].
  - destruct (@NewECDSAPublicKeyFromPEM_labels Toy.lib Toy.pkix_block "k1"
                [ifcrypto.KeyUsageSigning]) as (A & _).
    destruct (A (or_intror eq_refl)) as (W & _ & _).
    exact (W (Some (Toy.public_of 7)) eq_refl).
  - destruct (@NewECDSAPublicKeyFromPEM_labels Toy.lib Toy.pkix_block "k1"
                [ifcrypto.KeyUsageSigning]) as (A & _).
    destruct (A (or_intror eq_refl)) as (_ & _ & S).
    exact (S "PUBLIC KEY" (or_introl eq_refl)).
  - destruct (@NewECDSAPublicKeyFromPEM_labels Toy.lib Toy.certificate_block "k1" [])
      as (_ & U).
    apply U; discriminate.
Defined.

Lemma generated_key_local_asymmetric_witness :
  ECDSAPrivateKey.IsRemoteKey Toy.private_handle = false /\
  ECDSAPrivateKey.IsSymmetric Toy.private_handle = false.
Proof.
  apply (@generated_key_local_asymmetric Toy.lib "k1" 384
           [ifcrypto.KeyUsageSigning] [Byte.x07] Toy.private_handle).
  reflexivity.
Defined.

Lemma NewECDSAPrivateKey_ignores_bits_witness :
  keySize (ECDSAPrivateKey.base Toy.private_handle) = 256 /\
  (exists k, ECDSAPrivateKey.key Toy.private_handle = Some k /\
             ecdsa.Curve (ecdsa.Public k) = elliptic.P256) /\
  (forall bits',
     NewECDSAPrivateKey (H := Toy.lib) "k1" bits' [ifcrypto.KeyUsageSigning] [Byte.x07]
     = Return Toy.private_handle).
Proof.
  apply (@NewECDSAPrivateKey_ignores_bits Toy.lib "k1" 384
           [ifcrypto.KeyUsageSigning] [Byte.x07] Toy.private_handle).
  reflexivity.
Defined.

Lemma GetPublic_is_derived_counterpart_witness :
  exists pub : ECDSAPublicKey.t,
    ECDSAPrivateKey.GetPublic Toy.private_handle = Some pub /\
    NewECDSAPublicKeyFromKey "k1" (Some (Toy.public_of 7)) [ifcrypto.KeyUsageSigning]
    = Return pub /\
    id (ECDSAPublicKey.base pub) = "k1" /\
    usage (ECDSAPublicKey.base pub) = [ifcrypto.KeyUsageSigning].
Proof.
  apply (@GetPublic_is_derived_counterpart Toy.lib Toy.private_handle).
  apply (@private_from_pem Toy.lib Toy.sec1_block "k1" [ifcrypto.KeyUsageSigning]).
  reflexivity.
Defined.

Lemma keySize_is_curve_BitSize_witness :
  (exists params pub,
     ecdsa.PrivateKey_Params (ECDSAPrivateKey.key Toy.private_handle) = Return params /\
     keySize (ECDSAPrivateKey.base Toy.private_handle) = elliptic.BitSize params /\
     ECDSAPrivateKey.GetPublic Toy.private_handle = Some pub /\
     ecdsa.PublicKey_Params (ECDSAPublicKey.key pub) = Return params /\
     keySize (ECDSAPublicKey.base pub) = elliptic.BitSize params) /\
  (exists params,
     ecdsa.PublicKey_Params (ECDSAPublicKey.key Toy.public_handle) = Return params /\
     keySize (ECDSAPublicKey.base Toy.public_handle) = elliptic.BitSize params).
Proof.
  destruct (@keySize_is_curve_BitSize Toy.lib) as (P & Q). split.
  - apply P.
    apply (@private_generated Toy.lib "k1" 384 [ifcrypto.KeyUsageSigning] [Byte.x07]).
    reflexivity.
  - apply Q.
    apply (@public_from_pem Toy.lib Toy.pkix_block "k1" [ifcrypto.KeyUsageSigning]).
    reflexivity.
Defined.

Lemma export_import_round_trip_witness :
  exists block rest,
    pem_Decode (StdLib := Toy.lib) Toy.exported = (Some block, rest) /\
    pem.Type_ block = "EC PRIVATE KEY" /\
    NewECDSAPrivateKeyFromPEM (H := Toy.lib) block "k1" [ifcrypto.KeyUsageSigning]
    = Return Toy.private_handle /\
    forall id1 usage1,
    exists r',
      NewECDSAPrivateKeyFromPEM (H := Toy.lib) block id1 usage1 = Return r' /\
      (forall rand' digest opts,
         ECDSAPrivateKey.Sign (H := Toy.lib) r' rand' digest opts
         = ECDSAPrivateKey.Sign (H := Toy.lib) Toy.private_handle rand' digest opts) /\
      (forall w flag,
         through (ECDSAPrivateKey.GetPublic r')
           (fun p => ECDSAPublicKey.PEMWrite (H := Toy.lib) Toy.sec1_format p w flag)
         = through (ECDSAPrivateKey.GetPublic Toy.private_handle)
             (fun p => ECDSAPublicKey.PEMWrite (H := Toy.lib) Toy.sec1_format p w flag)).
Proof.
  apply (@export_import_round_trip Toy.lib Toy_CodecLaws Toy.sec1_format "k1" 384
           [ifcrypto.KeyUsageSigning] [Byte.x07] Toy.private_handle true Toy.exported).
  - reflexivity.
  - reflexivity.
Defined.

(* ================================================================== *)
(** ** Further properties of the package                                *)
(* ================================================================== *)

(* ------------------------------------------------------------------ *)
(** *** The from-native-key constructors                                *)
(* ------------------------------------------------------------------ *)

(** X1. [NewECDSAPrivateKeyFromKey] never returns an error. It panics
    exactly when the key is nil or has no curve; on a key with a curve it
    returns the handle of the composite literal: the given id and usage,
    the bit size of the curve, the key itself, and the public handle over
    the public part of the key. *)
Theorem NewECDSAPrivateKeyFromKey_outcome :
  forall (id0 : string) (key : ptr ecdsa.PrivateKey)
         (usage0 : list ifcrypto.KeyUsage),
    (NewECDSAPrivateKeyFromKey id0 key usage0 = Panic <->
       key = None \/
       exists k, key = Some k /\ ecdsa.Curve (ecdsa.Public k) = None) /\
    (forall err, NewECDSAPrivateKeyFromKey id0 key usage0 <> Fail err) /\
    (forall k params,
       key = Some k ->
       ecdsa.Curve (ecdsa.Public k) = Some params ->
       NewECDSAPrivateKeyFromKey id0 key usage0
       = Return
           {| ECDSAPrivateKey.base :=
                {| id := id0; keyType := ifcrypto.KeyTypeRsa;
                   keySize := elliptic.BitSize params;
                   usage := usage0; chiper := [] |};
              ECDSAPrivateKey.key := Some k;
              ECDSAPrivateKey.public :=
                Some {| ECDSAPublicKey.base :=
                          {| id := id0; keyType := ifcrypto.KeyTypeRsa;
                             keySize := elliptic.BitSize params;
                             usage := usage0; chiper := [] |};
                        ECDSAPublicKey.key := Some (ecdsa.Public k) |} |}).
Proof.
  intros id0 key usage0.
  unfold NewECDSAPrivateKeyFromKey, NewECDSAPublicKeyFromKey,
    ecdsa.PrivateKey_Params, ecdsa.PublicKey_Params.
  destruct key as [k | ]; simpl.
  - destruct (ecdsa.Curve (ecdsa.Public k)) as [params | ] eqn:Ec; simpl.
    + split; [ | split].
      * split; [discriminate | ].
        intros [N | (k' & E & C)]; [discriminate | ].
        injection E as <-. congruence.
      * discriminate.
      * intros k' params' E C. injection E as <-.
        rewrite Ec in C. injection C as <-. reflexivity.
    + split; [ | split].
      * split; [ | reflexivity].
        intros _. right. exists k; split; [reflexivity | exact Ec].
      * discriminate.
      * intros k' params' E C. injection E as <-. congruence.
  - split; [ | split].
    + split; [intros _; left; reflexivity | reflexivity].
    + discriminate.
    + discriminate.
Qed.

(** X2. [NewECDSAPublicKeyFromKey] never returns an error. It panics
    exactly when the key is nil or has no curve; on a key with a curve it
    returns the handle with the given id and usage, the bit size of the
    curve, no ciphers, and the key itself. *)
Theorem NewECDSAPublicKeyFromKey_outcome :
  forall (id0 : string) (key : ptr ecdsa.PublicKey)
         (usage0 : list ifcrypto.KeyUsage),
    (NewECDSAPublicKeyFromKey id0 key usage0 = Panic <->
       key = None \/ exists k, key = Some k /\ ecdsa.Curve k = None) /\
    (forall err, NewECDSAPublicKeyFromKey id0 key usage0 <> Fail err) /\
    (forall k params,
       key = Some k ->
       ecdsa.Curve k = Some params ->
       NewECDSAPublicKeyFromKey id0 key usage0
       = Return
           {| ECDSAPublicKey.base :=
                {| id := id0; keyType := ifcrypto.KeyTypeRsa;
                   keySize := elliptic.BitSize params;
                   usage := usage0; chiper := [] |};
              ECDSAPublicKey.key := Some k |}).
Proof.
  intros id0 key usage0.
  unfold NewECDSAPublicKeyFromKey, ecdsa.PublicKey_Params.
  destruct key as [k | ]; simpl.
  - destruct (ecdsa.Curve k) as [params | ] eqn:Ec; simpl.
    + split; [ | split].
      * split; [discriminate | ].
        intros [N | (k' & E & C)]; [discriminate | ].
        injection E as <-. congruence.
      * discriminate.
      * intros k' params' E C. injection E as <-.
        rewrite Ec in C. injection C as <-. reflexivity.
    + split; [ | split].
      * split; [ | reflexivity].
        intros _. right. exists k; split; [reflexivity | exact Ec].
      * discriminate.
      * intros k' params' E C. injection E as <-. congruence.
  - split; [ | split].
    + split; [intros _; left; reflexivity | reflexivity].
    + discriminate.
    + discriminate.
Qed.

(* ------------------------------------------------------------------ *)
(** *** The PEM factories                                               *)
(* ------------------------------------------------------------------ *)

Section PEMFactories.
Context `{StdLib}.

Lemma private_label_of_Return block id0 usage0 r :
  NewECDSAPrivateKeyFromPEM block id0 usage0 = Return r ->
  pem.Type_ block = "PRIVATE KEY" \/ pem.Type_ block = "EC PRIVATE KEY".
Proof.
  unfold NewECDSAPrivateKeyFromPEM.
  destruct (String.eqb (pem.Type_ block) "PRIVATE KEY") eqn:L1.
  - intros _; left; apply String.eqb_eq; exact L1.
  - destruct (String.eqb (pem.Type_ block) "EC PRIVATE KEY") eqn:L2.
    + intros _; right; apply String.eqb_eq; exact L2.
    + discriminate.
Qed.

Lemma public_label_of_Return block id0 usage0 p :
  NewECDSAPublicKeyFromPEM block id0 usage0 = Return p ->
  pem.Type_ block = "PUBLIC KEY" \/ pem.Type_ block = "EC PUBLIC KEY".
Proof.
  unfold NewECDSAPublicKeyFromPEM.
  destruct (String.eqb (pem.Type_ block) "PUBLIC KEY") eqn:L1; simpl.
  - intros _; left; apply String.eqb_eq; exact L1.
  - destruct (String.eqb (pem.Type_ block) "EC PUBLIC KEY") eqn:L2.
    + intros _; right; apply String.eqb_eq; exact L2.
    + discriminate.
Qed.

(** X3. Under either public label, a payload the PKIX parser accepts but
    whose key is not an ECDSA public key makes [NewECDSAPublicKeyFromPEM]
    fail with "not a *ecdsa.PublicKey: " followed by the dynamic type of
    the decoded key; the call does not panic and produces no handle. *)
Theorem NewECDSAPublicKeyFromPEM_key_type_mismatch :
  forall (block : pem.Block) (id0 : string) (usage0 : list ifcrypto.KeyUsage)
         (key : any),
    pem.Type_ block = "PUBLIC KEY" \/ pem.Type_ block = "EC PUBLIC KEY" ->
    ParsePKIXPublicKey (pem.Bytes block) = Return key ->
    assert_ecdsa_PublicKey key = None ->
    NewECDSAPublicKeyFromPEM block id0 usage0
    = Fail (GoError ("not a *ecdsa.PublicKey: " ++ typeName key)) /\
    NewECDSAPublicKeyFromPEM block id0 usage0 <> Panic /\
    produced (NewECDSAPublicKeyFromPEM block id0 usage0) = None.
Proof.
  intros block id0 usage0 key L P A.
  assert (E : NewECDSAPublicKeyFromPEM block id0 usage0
              = Fail (GoError ("not a *ecdsa.PublicKey: " ++ typeName key))).
  { unfold NewECDSAPublicKeyFromPEM.
    destruct L as [-> | ->]; simpl; rewrite P; simpl; rewrite A; reflexivity. }
  rewrite E. repeat split. discriminate.
Qed.

(** X4. [NewECDSAPrivateKeyFromPEM] produces a handle exactly when the
    label is "PRIVATE KEY" and the PKCS#8 parser returns a non-nil ECDSA
    private key, or the label is "EC PRIVATE KEY" and the EC parser returns
    a non-nil key, and [NewECDSAPrivateKeyFromKey] wraps that key; the
    handle is then the one [NewECDSAPrivateKeyFromKey] gives for the id,
    the parsed key and the usage. *)
Theorem NewECDSAPrivateKeyFromPEM_produces_iff :
  forall (block : pem.Block) (id0 : string) (usage0 : list ifcrypto.KeyUsage)
         (r : ECDSAPrivateKey.t),
    NewECDSAPrivateKeyFromPEM block id0 usage0 = Return r <->
    exists k : ecdsa.PrivateKey,
      (pem.Type_ block = "PRIVATE KEY" /\
       ParsePKCS8PrivateKey (pem.Bytes block) = Return (AnyECDSAPrivateKey (Some k))
       \/
       pem.Type_ block = "EC PRIVATE KEY" /\
       ParseECPrivateKey (pem.Bytes block) = Return (Some k)) /\
      NewECDSAPrivateKeyFromKey id0 (Some k) usage0 = Return r.
Proof.
  intros block id0 usage0 r. split.
  - unfold NewECDSAPrivateKeyFromPEM.
    destruct (String.eqb (pem.Type_ block) "PRIVATE KEY") eqn:L1.
    + apply String.eqb_eq in L1. intros E. step_in E.
      destruct v as [ | | [k | ] | | | | | | | ]; simpl in E; try discriminate.
      exists k; split; [left; split; assumption | exact E].
    + destruct (String.eqb (pem.Type_ block) "EC PRIVATE KEY") eqn:L2;
        [ | discriminate].
      apply String.eqb_eq in L2. intros E. step_in E.
      destruct v as [k | ]; [ | discriminate].
      exists k; split; [right; split; assumption | exact E].
  - intros (k & [[L P] | [L P]] & E); unfold NewECDSAPrivateKeyFromPEM;
      rewrite L; simpl; rewrite P; simpl; exact E.
Qed.

(** X5. [NewECDSAPublicKeyFromPEM] produces a handle exactly when the label
    is "PUBLIC KEY" or "EC PUBLIC KEY", the PKIX parser returns a non-nil
    ECDSA public key, and [NewECDSAPublicKeyFromKey] wraps that key; the
    handle is then the one [NewECDSAPublicKeyFromKey] gives for the id, the
    parsed key and the usage. *)
Theorem NewECDSAPublicKeyFromPEM_produces_iff :
  forall (block : pem.Block) (id0 : string) (usage0 : list ifcrypto.KeyUsage)
         (p : ECDSAPublicKey.t),
    NewECDSAPublicKeyFromPEM block id0 usage0 = Return p <->
    exists k : ecdsa.PublicKey,
      (pem.Type_ block = "PUBLIC KEY" \/ pem.Type_ block = "EC PUBLIC KEY") /\
      ParsePKIXPublicKey (pem.Bytes block) = Return (AnyECDSAPublicKey (Some k)) /\
      NewECDSAPublicKeyFromKey id0 (Some k) usage0 = Return p.
Proof.
  intros block id0 usage0 p. split.
  - intros E. pose proof (public_label_of_Return _ _ _ _ E) as L.
    unfold NewECDSAPublicKeyFromPEM in E.
    destruct (_ || _); [ | discriminate].
    step_in E.
    destruct v as [ | | | | | | | [k | ] | | ]; simpl in E; try discriminate.
    exists k; repeat split; assumption.
  - intros (k & L & P & E). unfold NewECDSAPublicKeyFromPEM.
    destruct L as [-> | ->]; simpl; rewrite P; simpl; exact E.
Qed.

(** X6. No block is accepted by both factories: a block from which
    [NewECDSAPrivateKeyFromPEM] produces a handle is refused by
    [NewECDSAPublicKeyFromPEM] as an unsupported PEM block, and a block
    from which [NewECDSAPublicKeyFromPEM] produces a handle is refused by
    [NewECDSAPrivateKeyFromPEM] the same way, whatever id and usage. *)
Theorem PEM_factories_accept_disjoint_labels :
  forall (block : pem.Block) (id1 id2 : string)
         (usage1 usage2 : list ifcrypto.KeyUsage),
    (forall r,
       NewECDSAPrivateKeyFromPEM block id1 usage1 = Return r ->
       NewECDSAPublicKeyFromPEM block id2 usage2
       = Fail (GoError ("unsupported PEM block: " ++ pem.Type_ block))) /\
    (forall p,
       NewECDSAPublicKeyFromPEM block id1 usage1 = Return p ->
       NewECDSAPrivateKeyFromPEM block id2 usage2
       = Fail (GoError ("unsupported PEM block: " ++ pem.Type_ block))).
Proof.
  intros block id1 id2 usage1 usage2. split.
  - intros r E. apply private_label_of_Return in E.
    unfold NewECDSAPublicKeyFromPEM. destruct E as [-> | ->]; reflexivity.
  - intros p E. apply public_label_of_Return in E.
    unfold NewECDSAPrivateKeyFromPEM. destruct E as [-> | ->]; reflexivity.
Qed.

End PEMFactories.

(* ------------------------------------------------------------------ *)
(** *** Generation, and the handles the paths produce                   *)
(* ------------------------------------------------------------------ *)

Section Handles.
Context `{StdLib}.

(** X7. [NewECDSAPrivateKey] follows [ecdsa.GenerateKey] on P-256 and adds
    no failure of its own: it produces a handle exactly when the generator
    returns a key, and the handle then holds that key with the given id and
    usage and key size 256; it returns an error exactly when the generator
    does, the same error; and it panics only if the generator does. *)
Theorem NewECDSAPrivateKey_outcome :
  forall (id0 : string) (bits : Z) (usage0 : list ifcrypto.KeyUsage)
         (rand : Reader),
    (forall r,
       NewECDSAPrivateKey id0 bits usage0 rand = Return r <->
       exists k,
         ecdsa_GenerateKey elliptic.P256 rand = Return (Some k) /\
         r = {| ECDSAPrivateKey.base :=
                  {| id := id0; keyType := ifcrypto.KeyTypeRsa;
                     keySize := 256; usage := usage0; chiper := [] |};
                ECDSAPrivateKey.key := Some k;
                ECDSAPrivateKey.public :=
                  Some {| ECDSAPublicKey.base :=
                            {| id := id0; keyType := ifcrypto.KeyTypeRsa;
                               keySize := 256; usage := usage0; chiper := [] |};
                          ECDSAPublicKey.key := Some (ecdsa.Public k) |} |}) /\
    (forall err,
       NewECDSAPrivateKey id0 bits usage0 rand = Fail err <->
       ecdsa_GenerateKey elliptic.P256 rand = Fail err) /\
    (NewECDSAPrivateKey id0 bits usage0 rand = Panic <->
     ecdsa_GenerateKey elliptic.P256 rand = Panic).
Proof.
  intros id0 bits usage0 rand. unfold NewECDSAPrivateKey.
  destruct (ecdsa_GenerateKey elliptic.P256 rand) as [key | err | ] eqn:G; simpl.
  - apply ecdsa_GenerateKey_Return in G as (k & -> & Ec & _).
    unfold NewECDSAPrivateKeyFromKey, NewECDSAPublicKeyFromKey,
      ecdsa.PrivateKey_Params, ecdsa.PublicKey_Params; simpl.
    rewrite Ec; simpl. split; [ | split].
    + intros r; split.
      * intros E; injection E as <-. exists k; split; reflexivity.
      * intros (k' & E & ->). injection E as <-. reflexivity.
    + intros err; split; discriminate.
    + split; discriminate.
  - split; [ | split].
    + intros r; split; [discriminate | intros (k & E & _); discriminate].
    + intros err'; split; intros E; injection E as <-; reflexivity.
    + split; discriminate.
  - split; [ | split].
    + intros r; split; [discriminate | intros (k & E & _); discriminate].
    + intros err'; split; discriminate.
    + split; reflexivity.
Qed.

(** X8. In a private handle of any construction path the key is non-nil
    and has a curve, and the key [GetKey] gives for the public counterpart
    is the public part of the key [GetKey] gives for the private handle. *)
Theorem public_counterpart_holds_public_part :
  forall r : ECDSAPrivateKey.t,
    ConstructedPrivate r ->
    exists (k : ecdsa.PrivateKey) (pub : ECDSAPublicKey.t),
      ECDSAPrivateKey.GetKey r = AnyECDSAPrivateKey (Some k) /\
      ecdsa.Curve (ecdsa.Public k) <> None /\
      ECDSAPrivateKey.GetPublic r = Some pub /\
      ECDSAPublicKey.GetKey pub = AnyECDSAPublicKey (Some (ecdsa.Public k)).
Proof.
  intros r C.
  apply ConstructedPrivate_from_key in C as (id0 & key & usage0 & E).
  apply NewECDSAPrivateKeyFromKey_Return in E as (params & pub & Ep & Epub & ->).
  apply PublicKey_Params_Return in Ep as (pk & Ek & Ec).
  destruct key as [k | ]; [ | discriminate].
  simpl in Ek. injection Ek as <-.
  apply NewECDSAPublicKeyFromKey_Return in Epub as (params' & _ & ->).
  exists k; eexists. repeat split. rewrite Ec; discriminate.
Qed.

(** X9. A handle is determined by its id, its key and its usage: wrapping
    the key of a private handle of any construction path again, under the
    id and usage of the handle, gives the handle back, and so for a public
    handle. *)
Theorem rewrapping_gives_the_handle_back :
  (forall r : ECDSAPrivateKey.t,
     ConstructedPrivate r ->
     NewECDSAPrivateKeyFromKey (id (ECDSAPrivateKey.base r))
       (ECDSAPrivateKey.key r) (usage (ECDSAPrivateKey.base r)) = Return r) /\
  (forall p : ECDSAPublicKey.t,
     ConstructedPublic p ->
     NewECDSAPublicKeyFromKey (id (ECDSAPublicKey.base p))
       (ECDSAPublicKey.key p) (usage (ECDSAPublicKey.base p)) = Return p).
Proof.
  split.
  - intros r C.
    apply ConstructedPrivate_from_key in C as (id0 & key & usage0 & E).
    pose proof (NewECDSAPrivateKeyFromKey_Return _ _ _ _ E)
      as (params & pub & _ & _ & ->).
    exact E.
  - intros p C.
    apply ConstructedPublic_from_key in C as (id0 & key & usage0 & E).
    pose proof (NewECDSAPublicKeyFromKey_Return _ _ _ _ E) as (params & _ & ->).
    exact E.
Qed.

(** X10. [Sign] depends on the key only: two handles wrapped around the
    same key, under any ids and usages, give the same outcome for the same
    entropy, digest and options, the one of the key's own [Sign]; the key
    of a handle is non-nil, so the call does not panic on a nil key. *)
Theorem Sign_depends_on_key_only :
  forall (id1 id2 : string) (key : ptr ecdsa.PrivateKey)
         (usage1 usage2 : list ifcrypto.KeyUsage) (r1 r2 : ECDSAPrivateKey.t),
    NewECDSAPrivateKeyFromKey id1 key usage1 = Return r1 ->
    NewECDSAPrivateKeyFromKey id2 key usage2 = Return r2 ->
    exists k : ecdsa.PrivateKey,
      key = Some k /\
      forall rand digest opts,
        ECDSAPrivateKey.Sign r1 rand digest opts = ecdsa_sign k rand digest opts /\
        ECDSAPrivateKey.Sign r2 rand digest opts = ecdsa_sign k rand digest opts.
Proof.
  intros id1 id2 key usage1 usage2 r1 r2 E1 E2.
  apply NewECDSAPrivateKeyFromKey_Return in E1 as (params1 & pub1 & Ep & _ & ->).
  apply NewECDSAPrivateKeyFromKey_Return in E2 as (params2 & pub2 & _ & _ & ->).
  apply PublicKey_Params_Return in Ep as (pk & Ek & _).
  destruct key as [k | ]; [ | discriminate].
  exists k; split; [reflexivity | ].
  intros rand digest opts. split; reflexivity.
Qed.

End Handles.

(** X11. The two routes to a public handle agree: if the PKIX parser reads,
    from a block under a public label, the public part of the key of a
    private handle, then [NewECDSAPublicKeyFromPEM] on that block, under
    the id and usage of the private handle, produces the public counterpart
    [GetPublic] returns. *)
Theorem public_import_agrees_with_GetPublic :
  forall `{StdLib} (r : ECDSAPrivateKey.t) (k : ecdsa.PrivateKey)
         (block : pem.Block),
    ConstructedPrivate r ->
    ECDSAPrivateKey.key r = Some k ->
    pem.Type_ block = "PUBLIC KEY" \/ pem.Type_ block = "EC PUBLIC KEY" ->
    ParsePKIXPublicKey (pem.Bytes block)
    = Return (AnyECDSAPublicKey (Some (ecdsa.Public k))) ->
    exists pub : ECDSAPublicKey.t,
      ECDSAPrivateKey.GetPublic r = Some pub /\
      NewECDSAPublicKeyFromPEM block (id (ECDSAPrivateKey.base r))
        (usage (ECDSAPrivateKey.base r)) = Return pub.
Proof.
  intros lib r k block C K L P.
  apply ConstructedPrivate_from_key in C as (id0 & key & usage0 & E).
  apply NewECDSAPrivateKeyFromKey_Return in E as (params & pub & _ & Epub & ->).
  simpl in K; subst key. exists pub; split; [reflexivity | ]. simpl.
  unfold NewECDSAPublicKeyFromPEM.
  destruct L as [-> | ->]; simpl; rewrite P; simpl; exact Epub.
Qed.

(* ------------------------------------------------------------------ *)
(** *** These properties at concrete inputs                             *)
(* ------------------------------------------------------------------ *)

Lemma NewECDSAPublicKeyFromPEM_key_type_mismatch_witness :
  NewECDSAPublicKeyFromPEM (H := Toy.lib)
    {| pem.Type_ := "PUBLIC KEY"; pem.Headers := [];
       pem.Bytes := [Byte.x51; Byte.x05] |} "k1" []
  = Fail (GoError "not a *ecdsa.PublicKey: *rsa.PublicKey") /\
  NewECDSAPublicKeyFromPEM (H := Toy.lib)
    {| pem.Type_ := "PUBLIC KEY"; pem.Headers := [];
       pem.Bytes := [Byte.x51; Byte.x05] |} "k1" [] <> Panic /\
  produced (NewECDSAPublicKeyFromPEM (H := Toy.lib)
              {| pem.Type_ := "PUBLIC KEY"; pem.Headers := [];
                 pem.Bytes := [Byte.x51; Byte.x05] |} "k1" []) = None.
Proof.
  apply (@NewECDSAPublicKeyFromPEM_key_type_mismatch Toy.lib
           {| pem.Type_ := "PUBLIC KEY"; pem.Headers := [];
              pem.Bytes := [Byte.x51; Byte.x05] |} "k1" []
           (AnyRSAPublicKey 3233 5)).
  - left; reflexivity.
  - reflexivity.
  - reflexivity.
Defined.

Lemma PEM_factories_accept_disjoint_labels_witness :
  NewECDSAPublicKeyFromPEM (H := Toy.lib) Toy.sec1_block "k2" []
  = Fail (GoError "unsupported PEM block: EC PRIVATE KEY") /\
  NewECDSAPrivateKeyFromPEM (H := Toy.lib) Toy.pkix_block "k2" []
  = Fail (GoError "unsupported PEM block: EC PUBLIC KEY").
Proof.
  split.
  - destruct (@PEM_factories_accept_disjoint_labels Toy.lib Toy.sec1_block
                "k1" "k2" [ifcrypto.KeyUsageSigning] []) as (A & _).
    exact (A Toy.private_handle eq_refl).
  - destruct (@PEM_factories_accept_disjoint_labels Toy.lib Toy.pkix_block
                "k1" "k2" [ifcrypto.KeyUsageSigning] []) as (_ & B).
    exact (B Toy.public_handle eq_refl).
Defined.

Lemma public_counterpart_holds_public_part_witness :
  exists (k : ecdsa.PrivateKey) (pub : ECDSAPublicKey.t),
    ECDSAPrivateKey.GetKey Toy.private_handle = AnyECDSAPrivateKey (Some k) /\
    ecdsa.Curve (ecdsa.Public k) <> None /\
    ECDSAPrivateKey.GetPublic Toy.private_handle = Some pub /\
    ECDSAPublicKey.GetKey pub = AnyECDSAPublicKey (Some (ecdsa.Public k)).
Proof.
  apply (@public_counterpart_holds_public_part Toy.lib Toy.private_handle).
  apply (@private_from_pem Toy.lib Toy.pkcs8_block "k1" [ifcrypto.KeyUsageSigning]).
  reflexivity.
Defined.

Lemma rewrapping_gives_the_handle_back_witness :
  NewECDSAPrivateKeyFromKey "k1" (Some (Toy.key_of 7)) [ifcrypto.KeyUsageSigning]
  = Return Toy.private_handle /\
  NewECDSAPublicKeyFromKey "k1" (Some (Toy.public_of 7)) [ifcrypto.KeyUsageSigning]
  = Return Toy.public_handle.
Proof.
  destruct (@rewrapping_gives_the_handle_back Toy.lib) as (P & Q). split.
  - apply (P Toy.private_handle).
    apply (@private_generated Toy.lib "k1" 521 [ifcrypto.KeyUsageSigning] [Byte.x07]).
    reflexivity.
  - apply (Q Toy.public_handle).
    apply (@public_of_private Toy.lib Toy.private_handle).
    + apply (@private_from_pem Toy.lib Toy.sec1_block "k1" [ifcrypto.KeyUsageSigning]).
      reflexivity.
    + reflexivity.
Defined.

Lemma Sign_depends_on_key_only_witness :
  exists k : ecdsa.PrivateKey,
    Some (Toy.key_of 7) = Some k /\
    forall rand digest opts,
      ECDSAPrivateKey.Sign (H := Toy.lib) Toy.private_handle rand digest opts
      = ecdsa_sign (StdLib := Toy.lib) k rand digest opts /\
      ECDSAPrivateKey.Sign (H := Toy.lib)
        {| ECDSAPrivateKey.base :=
             {| id := "k2"; keyType := ifcrypto.KeyTypeRsa; keySize := 256;
                usage := [ifcrypto.KeyUsageEncryption]; chiper := [] |};
           ECDSAPrivateKey.key := Some (Toy.key_of 7);
           ECDSAPrivateKey.public :=
             Some {| ECDSAPublicKey.base :=
                       {| id := "k2"; keyType := ifcrypto.KeyTypeRsa;
                          keySize := 256;
                          usage := [ifcrypto.KeyUsageEncryption]; chiper := [] |};
                     ECDSAPublicKey.key := Some (Toy.public_of 7) |} |}
        rand digest opts
      = ecdsa_sign (StdLib := Toy.lib) k rand digest opts.
Proof.
  apply (@Sign_depends_on_key_only Toy.lib "k1" "k2" (Some (Toy.key_of 7))
           [ifcrypto.KeyUsageSigning] [ifcrypto.KeyUsageEncryption]).
  - reflexivity.
  - reflexivity.
Defined.

Lemma public_import_agrees_with_GetPublic_witness :
  exists pub : ECDSAPublicKey.t,
    ECDSAPrivateKey.GetPublic Toy.private_handle = Some pub /\
    NewECDSAPublicKeyFromPEM (H := Toy.lib) Toy.pkix_block "k1"
      [ifcrypto.KeyUsageSigning] = Return pub.
Proof.
  apply (@public_import_agrees_with_GetPublic Toy.lib Toy.private_handle
           (Toy.key_of 7) Toy.pkix_block).
  - apply (@private_from_pem Toy.lib Toy.sec1_block "k1" [ifcrypto.KeyUsageSigning]).
    reflexivity.
  - reflexivity.
  - right; reflexivity.
  - reflexivity.
Defined.
